(** * APIManagerTemplate: the credential holder and the request dispatcher

    A shallow embedding of [manager.py]: the [URL] string type with its
    path-joining operator, the [AuthManager] model (validated construction,
    [api_url], [headers]) and [RequestManager.request].

    Python strings are modelled as [string], read as the UTF-8 bytes of the
    text.  The characters the code itself inspects are ['/'] (in
    [rstrip]/[lstrip]) and [':'] (in the login check of [BasicAuth]); both
    are ASCII and never occur inside the encoding of another character.
    [str.lower] is computed here on ASCII strings; on a string with a
    character outside ASCII it is what the interpreter's Unicode tables
    make it, which the environment supplies. *)

From Stdlib Require Import String Ascii List Bool Arith Lia.
From stdpp Require Import gmap strings.

Local Open Scope string_scope.

#[local] Arguments String.append !s1 s2 : simpl nomatch.

(** ** Python string primitives *)

Module PyStr.

Definition is_slash (c : ascii) : bool := Ascii.eqb c "/"%char.

(** [s.lstrip('/')]: drop the longest prefix made of ['/']. *)
Fixpoint lstrip (s : string) : string :=
  match s with
  | EmptyString => EmptyString
  | String c r => if is_slash c then lstrip r else s
  end.

(** [s.rstrip('/')]: drop the longest suffix made of ['/']. *)
Fixpoint rstrip (s : string) : string :=
  match s with
  | EmptyString => EmptyString
  | String c r =>
      match rstrip r with
      | EmptyString => if is_slash c then EmptyString else String c EmptyString
      | r' => String c r'
      end
  end.

(** [n] copies of ['/']. *)
Fixpoint slashes (n : nat) : string :=
  match n with
  | O => EmptyString
  | S k => String "/"%char (slashes k)
  end.

(** First and last characters, when there are any. *)
Definition head (s : string) : option ascii :=
  match s with
  | EmptyString => None
  | String c _ => Some c
  end.

Fixpoint last (s : string) : option ascii :=
  match s with
  | EmptyString => None
  | String c EmptyString => Some c
  | String _ r => last r
  end.

Definition starts_with_slash (s : string) : bool :=
  match head s with Some c => is_slash c | None => false end.

Definition ends_with_slash (s : string) : bool :=
  match last s with Some c => is_slash c | None => false end.

(** [c.lower()] on one ASCII character: ['A'..'Z'] move to ['a'..'z']. *)
Definition lower_char (c : ascii) : ascii :=
  let n := nat_of_ascii c in
  if Nat.leb 65 n && Nat.leb n 90 then ascii_of_nat (n + 32) else c.

(** [s.lower()] on a string of ASCII characters. *)
Fixpoint lower_ascii (s : string) : string :=
  match s with
  | EmptyString => EmptyString
  | String c r => String (lower_char c) (lower_ascii r)
  end.

(** Whether every character of [s] is ASCII. *)
Fixpoint is_ascii (s : string) : bool :=
  match s with
  | EmptyString => true
  | String c r => Nat.ltb (nat_of_ascii c) 128 && is_ascii r
  end.

(** [s.lower()].  [unicode_lower] is [str.lower] on the strings that have a
    character outside ASCII. *)
Definition lower (unicode_lower : string -> string) (s : string) : string :=
  if is_ascii s then lower_ascii s else unicode_lower s.

(** [":" in s]. *)
Fixpoint contains_colon (s : string) : bool :=
  match s with
  | EmptyString => false
  | String c r => Ascii.eqb c ":"%char || contains_colon r
  end.

(** Truth value of a string: [bool(s)]. *)
Definition truthy (s : string) : bool :=
  match s with
  | EmptyString => false
  | String _ _ => true
  end.

(** Truth value of an [Optional[str]]. *)
Definition truthy_opt (o : option string) : bool :=
  match o with
  | None => false
  | Some s => truthy s
  end.

(** What an f-string prints for an [Optional[str]] field. *)
Definition format_opt (o : option string) : string :=
  match o with
  | None => "None"
  | Some s => s
  end.

End PyStr.

(** ** class URL(str) *)

Module URL.

(** [URL.__truediv__(self, other)]:
    [URL(f"{self.rstrip('/')}/{other.lstrip('/')}")]. *)
Definition truediv (self other : string) : string :=
  PyStr.rstrip self +:+ "/" +:+ PyStr.lstrip other.

End URL.

Declare Scope url_scope.
Delimit Scope url_scope with url.
Notation "a </> b" := (URL.truediv a b) (at level 40, left associativity) : url_scope.

(** ** Pydantic construction of the credential model *)

Module Pydantic.

(** A keyword argument of a model constructor: left out, passed as
    [None], or passed as a string. *)
Inductive arg : Type :=
| Missing
| PyNone
| PyStr (s : string).

(** The two ways a [str] field declared with [Field(...)] is refused. *)
Inductive ValidationError : Type :=
| field_required (field : string)
| string_type (field : string).

(** An [Optional[str]] field with default [d]. *)
Definition optional_str (d : option string) (a : arg) : option string :=
  match a with
  | Missing => d
  | PyNone => None
  | PyStr s => Some s
  end.

(** A required [str] field: any string passes, the empty one included. *)
Definition required_str (field : string) (a : arg) : ValidationError + string :=
  match a with
  | Missing => inl (field_required field)
  | PyNone => inl (string_type field)
  | PyStr s => inr s
  end.

Definition arg_of_option (o : option string) : arg :=
  match o with
  | None => PyNone
  | Some s => PyStr s
  end.

End Pydantic.

(** ** class AuthManager(BaseModel) *)

Record AuthManager : Type := mkAuthManager {
  username : option string;   (* Optional[str] = Field(None) *)
  token : string;             (* str = Field(...) *)
  base_url : option string    (* Optional[str] = Field("https://api.url") *)
}.

(** [RequestManager] subclasses [AuthManager] and adds no field. *)
Definition RequestManager : Type := AuthManager.

Definition default_base_url : string := "https://api.url".

(** [AuthManager(username=..., token=..., base_url=...)]. *)
Definition AuthManager_init (username token base_url : Pydantic.arg)
  : Pydantic.ValidationError + AuthManager :=
  match Pydantic.required_str "token" token with
  | inl e => inl e
  | inr t =>
      inr {| username := Pydantic.optional_str None username;
             token := t;
             base_url := Pydantic.optional_str (Some default_base_url) base_url |}
  end.

(** [RequestManager.__init__(self, auth)]:
    [super().__init__(username=auth.username, token=auth.token,
    base_url=auth.base_url)]. *)
Definition RequestManager_init (auth : AuthManager)
  : Pydantic.ValidationError + RequestManager :=
  AuthManager_init (Pydantic.arg_of_option (username auth))
                   (Pydantic.PyStr (token auth))
                   (Pydantic.arg_of_option (base_url auth)).

Definition api_prefix : string := "api/v1".

(** [AuthManager.api_url]: [URL(f"{self.base_url}/{api_prefix}")]. *)
Definition api_url (self : AuthManager) : string :=
  PyStr.format_opt (base_url self) +:+ "/" +:+ api_prefix.

(** The header dictionary.  [user_agent] is the string the [user_agent]
    property returned for this call. *)
Definition headers_dict (self : AuthManager) (user_agent : string) (bearer : bool)
  : gmap string string :=
  let extra : gmap string string :=
    if bearer then {[ "Authorization" := "Bearer " +:+ token self ]} else ∅ in
  extra ∪ <["User-Agent" := user_agent]>
            (<["Accept" := "application/json"]>
               (<["Content-Type" := "application/json"]> ∅)).

(** ** aiohttp objects, as far as [request] uses them *)

(** [aiohttp.BasicAuth]: a named tuple [(login, password, encoding)]. *)
Record BasicAuth : Type := mkBasicAuth {
  login : string;
  password : string;
  encoding : string
}.

(** A Python exception: its class and its message. *)
Inductive Exception : Type :=
| Raised (cls msg : string).

Definition exception_class (e : Exception) : string :=
  match e with
  | Raised cls _ => cls
  end.

(** The message of the [ValueError] of a login with a colon:
    [A ":" is not allowed in login (RFC 1945#section-11.1)]. *)
Definition colon_in_login : string :=
  "A " +:+ String "034"%char (":" +:+ String "034"%char
    " is not allowed in login (RFC 1945#section-11.1)").

(** [BasicAuth(login, password)], with the default encoding.  The
    constructor refuses [None] for either argument (which [request] never
    passes) and a login with a colon in it. *)
Definition BasicAuth_new (login password : string) : Exception + BasicAuth :=
  if PyStr.contains_colon login
  then inl (Raised "ValueError" colon_in_login)
  else inr {| login := login; password := password; encoding := "latin1" |}.

(** [bool(auth)] for [auth : Optional[BasicAuth]]: a three-field tuple is
    never empty, so only [None] is false. *)
Definition bool_auth (auth : option BasicAuth) : bool :=
  match auth with
  | Some _ => true
  | None => false
  end.

(** The HTTP verbs a [ClientSession] has a method for. *)
Inductive verb : Type := GET | OPTIONS | HEAD | POST | PUT | PATCH | DELETE.

Definition verb_name (v : verb) : string :=
  match v with
  | GET => "get"
  | OPTIONS => "options"
  | HEAD => "head"
  | POST => "post"
  | PUT => "put"
  | PATCH => "patch"
  | DELETE => "delete"
  end.

Definition all_verbs : list verb := [GET; OPTIONS; HEAD; POST; PUT; PATCH; DELETE].

Definition verb_of_name (name : string) : option verb :=
  List.find (fun v => String.eqb (verb_name v) name) all_verbs.

(** What [getattr(session, name)] can give: a verb method, or any other
    attribute of the session object ([close], [closed], [request],
    [__class__], ...). *)
Inductive attribute : Type :=
| Method (v : verb)
| Member (name : string).

Record ClientSession : Type := mkClientSession {
  session_auth : option BasicAuth   (* ClientSession(auth=auth) *)
}.

(** One invocation [requester(url, headers=headers, params=params)] on a
    session. *)
Record call : Type := mkCall {
  call_requester : attribute;
  call_auth : option BasicAuth;
  call_url : string;
  call_headers : gmap string string;
  call_params : option (list (string * string))
}.

Record Response : Type := mkResponse {
  status : nat;
  body : string
}.

Unset Elimination Schemes.
Inductive JSON : Type :=
| JNull
| JBool (b : bool)
| JNumber (n : Z)
| JString (s : string)
| JArray (items : list JSON)
| JObject (fields : list (string * JSON)).
Set Elimination Schemes.

(** Everything outside the repository that [request] talks to. *)
Record Environment : Type := mkEnvironment {
  (* the n-th string handed out by [user_agent.generate_user_agent()] *)
  generate_user_agent : nat -> string;
  (* names of the session's attributes other than the verb methods *)
  has_member : string -> bool;
  (* entering [async with requester(...)]: the response, or the exception *)
  perform : call -> Exception + Response;
  (* [await response.json()] *)
  read_json : Response -> Exception + JSON;
  (* [str.lower] on a string with a character outside ASCII *)
  unicode_lower : string -> string
}.

(** ** The interpreter state and its monad *)

Record state : Type := mkState {
  self_obj : RequestManager;   (* the object [self] is bound to *)
  ua_draws : nat;              (* user agents generated so far *)
  calls : list call            (* requester invocations so far, oldest first *)
}.

Definition M (A : Type) : Type := state -> (Exception + A) * state.

Definition ret {A} (a : A) : M A := fun st => (inr a, st).

Definition raise {A} (e : Exception) : M A := fun st => (inl e, st).

Definition bind {A B} (m : M A) (k : A -> M B) : M B :=
  fun st =>
    match m st with
    | (inl e, st') => (inl e, st')
    | (inr a, st') => k a st'
    end.

Notation "'let*' x ':=' m 'in' k" := (bind m (fun x => k))
  (at level 10, x name, m at level 100, k at level 200).

(** Reading an attribute of [self]. *)
Definition self_attr {A} (field : RequestManager -> A) : M A :=
  fun st => (inr (field (self_obj st)), st).

Definition lift_result {A} (r : Exception + A) : M A :=
  fun st => (r, st).

(** A computation that leaves the object [self] as it found it. *)
Definition preserves_self {A} (m : M A) : Prop :=
  forall st, self_obj (snd (m st)) = self_obj st.

Section Client.

Variable env : Environment.

(** [AuthManager.user_agent]: [user_agent.generate_user_agent()]. *)
Definition user_agent : M string :=
  fun st =>
    (inr (generate_user_agent env (ua_draws st)),
     {| self_obj := self_obj st; ua_draws := S (ua_draws st); calls := calls st |}).

(** [AuthManager.headers(self, bearer)]. *)
Definition headers (bearer : bool) : M (gmap string string) :=
  let* ua := user_agent in
  let* self := self_attr id in
  ret (headers_dict self ua bearer).

(** [getattr(session, name, default)]. *)
Definition getattr (session : ClientSession) (name : string) (default : attribute)
  : attribute :=
  match verb_of_name name with
  | Some v => Method v
  | None => if has_member env name then Member name else default
  end.

(** [requester(url, headers=headers, params=params)] on [session]. *)
Definition invoke (session : ClientSession) (requester : attribute) (url : string)
    (hdrs : gmap string string) (params : option (list (string * string)))
  : M Response :=
  fun st =>
    let c := {| call_requester := requester; call_auth := session_auth session;
                call_url := url; call_headers := hdrs; call_params := params |} in
    (perform env c,
     {| self_obj := self_obj st; ua_draws := ua_draws st; calls := calls st ++ [c] |}).

(** [BasicAuth(self.username, self.token) if self.username and self.token
    else None]. *)
Definition request_auth (self : RequestManager) : Exception + option BasicAuth :=
  match username self with
  | Some u =>
      if PyStr.truthy u && PyStr.truthy (token self)
      then match BasicAuth_new u (token self) with
           | inl e => inl e
           | inr a => inr (Some a)
           end
      else inr None
  | None => inr None
  end.

(** [RequestManager.request(self, endpoint, method, params)]. *)
Definition request (endpoint method : string)
    (params : option (list (string * string))) : M JSON :=
  let* root := self_attr api_url in
  let url := (root </> PyStr.lstrip endpoint)%url in
  let* auth := (let* self := self_attr id in lift_result (request_auth self)) in
  let* hdrs := headers (negb (bool_auth auth)) in
  let session := {| session_auth := auth |} in
  let requester :=
    getattr session (PyStr.lower (unicode_lower env) method) (Method GET) in
  let* response := invoke session requester url hdrs params in
  lift_result (read_json env response).

End Client.

(** The call [request] makes from state [st] once the credentials [auth]
    are built, in closed form (see [request_run]). *)
Definition request_call (env : Environment) (st : state) (auth : option BasicAuth)
    (endpoint method : string) (params : option (list (string * string))) : call :=
  let self := self_obj st in
  {| call_requester :=
       getattr env {| session_auth := auth |}
         (PyStr.lower (unicode_lower env) method) (Method GET);
     call_auth := auth;
     call_url := (api_url self </> PyStr.lstrip endpoint)%url;
     call_headers :=
       headers_dict self (generate_user_agent env (ua_draws st))
         (negb (bool_auth auth));
     call_params := params |}.

(** Running [request] on a manager, from a fresh interpreter state. *)
Definition initial_state (self : RequestManager) : state :=
  {| self_obj := self; ua_draws := 0; calls := [] |}.

Definition run_request (env : Environment) (self : RequestManager)
    (endpoint method : string) (params : option (list (string * string)))
  : (Exception + JSON) * state :=
  request env endpoint method params (initial_state self).

(** The call [request] hands to its requester. *)
Definition issued_calls (env : Environment) (self : RequestManager)
    (endpoint method : string) (params : option (list (string * string)))
  : list call :=
  calls (snd (run_request env self endpoint method params)).

(** ** A sample environment

    A session with aiohttp's [close] and [closed] besides the verb methods;
    a transport that answers a verb call with [outcome] and raises
    [TypeError] when the requester is not a verb method; a decoder that
    knows the bodies [null] and [[1]]; a lower-casing that knows the ASCII
    letters and the Kelvin sign (U+212A, bytes 226 132 170), which
    [str.lower] turns into [k]. *)

Definition is_kelvin_sign (a b c : ascii) : bool :=
  Nat.eqb (nat_of_ascii a) 226 && Nat.eqb (nat_of_ascii b) 132
  && Nat.eqb (nat_of_ascii c) 170.

Fixpoint sample_unicode_lower (s : string) : string :=
  match s with
  | EmptyString => EmptyString
  | String a t =>
      match t with
      | String b (String c r) =>
          if is_kelvin_sign a b c
          then String "k"%char (sample_unicode_lower r)
          else String (PyStr.lower_char a) (sample_unicode_lower t)
      | _ => String (PyStr.lower_char a) (sample_unicode_lower t)
      end
  end.

Definition sample_members : list string := ["close"; "closed"].

Definition sample_perform (outcome : Exception + Response) (c : call)
  : Exception + Response :=
  match call_requester c with
  | Method _ => outcome
  | Member name => inl (Raised "TypeError" name)
  end.

Definition sample_read_json (r : Response) : Exception + JSON :=
  if String.eqb (body r) "null" then inr JNull
  else if String.eqb (body r) "[1]" then inr (JArray [JNumber 1])
  else inl (Raised "JSONDecodeError" (body r)).

Definition sample_env (outcome : Exception + Response) : Environment :=
  {| generate_user_agent := fun n => "Mozilla/5.0 (X11; Linux x86_64) " +:+ PyStr.slashes n;
     has_member := fun name => existsb (String.eqb name) sample_members;
     perform := sample_perform outcome;
     read_json := sample_read_json;
     unicode_lower := sample_unicode_lower |}.

Definition ok_response : Exception + Response :=
  inr {| status := 200; body := "[1]" |}.

(** * Properties *)

(** ** Stripping and joining *)

Section StripFacts.

Import PyStr.

Lemma append_empty_r (s : string) : s +:+ "" = s.
Proof. induction s as [|c r IH]; simpl; [reflexivity | now rewrite IH]. Qed.

Lemma append_assoc (a b c : string) : (a +:+ b) +:+ c = a +:+ (b +:+ c).
Proof. induction a as [|x r IH]; simpl; [reflexivity | now rewrite IH]. Qed.

Lemma is_slash_true (c : ascii) : is_slash c = true -> c = "/"%char.
Proof. unfold is_slash. intros H. now apply Ascii.eqb_eq. Qed.

Lemma lstrip_slashes (n : nat) (s : string) : lstrip (slashes n +:+ s) = lstrip s.
Proof. induction n as [|n IH]; simpl; [reflexivity | exact IH]. Qed.

Lemma lstrip_fixed (s : string) : starts_with_slash s = false -> lstrip s = s.
Proof.
  destruct s as [|c r]; simpl; [reflexivity |].
  unfold starts_with_slash; simpl. now intros ->.
Qed.

Lemma lstrip_clean (s : string) : starts_with_slash (lstrip s) = false.
Proof.
  induction s as [|c r IH]; simpl; [reflexivity |].
  destruct (is_slash c) eqn:E; [exact IH |].
  unfold starts_with_slash; simpl. exact E.
Qed.

Lemma lstrip_idem (s : string) : lstrip (lstrip s) = lstrip s.
Proof. apply lstrip_fixed, lstrip_clean. Qed.

Lemma lstrip_split (s : string) : exists n, s = slashes n +:+ lstrip s.
Proof.
  induction s as [|c r [n IH]]; simpl.
  - now exists 0.
  - destruct (is_slash c) eqn:E.
    + exists (S n). simpl. apply is_slash_true in E. subst c. now rewrite <- IH.
    + now exists 0.
Qed.

(** Stripping on the left of a concatenation. *)
Lemma lstrip_app (a b : string) :
  lstrip (a +:+ b) =
    match lstrip a with
    | EmptyString => lstrip b
    | String _ _ => lstrip a +:+ b
    end.
Proof.
  induction a as [|c r IH]; simpl.
  - reflexivity.
  - destruct (is_slash c); [exact IH | reflexivity].
Qed.

(** Stripping on the right of a concatenation. *)
Lemma rstrip_app (a b : string) :
  rstrip (a +:+ b) =
    match rstrip b with
    | EmptyString => rstrip a
    | String _ _ => a +:+ rstrip b
    end.
Proof.
  induction a as [|c r IH]; simpl.
  - now destruct (rstrip b).
  - rewrite IH. destruct (rstrip b) as [|x y] eqn:E; [reflexivity |].
    now destruct r.
Qed.

Lemma rstrip_slashes_only (n : nat) : rstrip (slashes n) = "".
Proof. induction n as [|n IH]; simpl; [reflexivity | now rewrite IH]. Qed.

Lemma rstrip_slashes (s : string) (n : nat) : rstrip (s +:+ slashes n) = rstrip s.
Proof. now rewrite rstrip_app, rstrip_slashes_only. Qed.

Lemma last_cons (c : ascii) (s : string) :
  last (String c s) = match s with EmptyString => Some c | String _ _ => last s end.
Proof. now destruct s. Qed.

Lemma rstrip_fixed (s : string) : ends_with_slash s = false -> rstrip s = s.
Proof.
  unfold ends_with_slash.
  induction s as [|c r IH]; [reflexivity |].
  rewrite last_cons. destruct r as [|d r'].
  - simpl. now intros ->.
  - intros H. specialize (IH H). change (rstrip (String c (String d r')))
      with (match rstrip (String d r') with
            | EmptyString => if is_slash c then EmptyString else String c EmptyString
            | String _ _ as r0 => String c r0
            end).
    now rewrite IH.
Qed.

Lemma rstrip_clean (s : string) : ends_with_slash (rstrip s) = false.
Proof.
  unfold ends_with_slash.
  induction s as [|c r IH]; simpl; [reflexivity |].
  destruct (rstrip r) as [|d r'] eqn:E.
  - destruct (is_slash c) eqn:Ec; simpl; [reflexivity | exact Ec].
  - rewrite last_cons. exact IH.
Qed.

Lemma rstrip_idem (s : string) : rstrip (rstrip s) = rstrip s.
Proof. apply rstrip_fixed, rstrip_clean. Qed.

Lemma rstrip_split (s : string) : exists n, s = rstrip s +:+ slashes n.
Proof.
  induction s as [|c r [n IH]]; simpl.
  - now exists 0.
  - destruct (rstrip r) as [|d r'] eqn:E.
    + destruct (is_slash c) eqn:Ec.
      * exists (S n). apply is_slash_true in Ec. subst c. simpl in *. now rewrite <- IH.
      * exists n. simpl in *. now rewrite <- IH.
    + exists n. simpl in *. now rewrite <- IH.
Qed.

(** A string is all slashes exactly when either strip empties it. *)
Lemma lstrip_empty_iff_rstrip_empty (s : string) : lstrip s = "" <-> rstrip s = "".
Proof.
  split; intros H.
  - destruct (lstrip_split s) as [n Hn]. rewrite H, append_empty_r in Hn.
    rewrite Hn. apply rstrip_slashes_only.
  - destruct (rstrip_split s) as [n Hn]. rewrite H in Hn. simpl in Hn.
    rewrite Hn, <- (append_empty_r (slashes n)), lstrip_slashes. reflexivity.
Qed.

(** The two strips commute. *)
Lemma rstrip_lstrip (s : string) : rstrip (lstrip s) = lstrip (rstrip s).
Proof.
  induction s as [|c r IH]; [reflexivity |].
  destruct (is_slash c) eqn:Ec.
  - change (lstrip (String c r)) with (if is_slash c then lstrip r else String c r).
    rewrite Ec, IH. simpl.
    destruct (rstrip r) as [|d r'] eqn:E.
    + rewrite Ec. reflexivity.
    + simpl. rewrite Ec. reflexivity.
  - rewrite (lstrip_fixed (String c r)) by (unfold starts_with_slash; simpl; exact Ec).
    symmetry. apply lstrip_fixed. simpl.
    destruct (rstrip r); [rewrite Ec |]; unfold starts_with_slash; simpl; exact Ec.
Qed.

End StripFacts.

Section JoinFacts.

Import PyStr.
Local Open Scope url_scope.

Lemma truediv_unfold (root seg : string) :
  root </> seg = rstrip root +:+ "/" +:+ lstrip seg.
Proof. reflexivity. Qed.

(** The left part of a join survives a later right strip. *)
Lemma rstrip_truediv (root seg : string) :
  rstrip (root </> seg) =
    match lstrip seg with
    | EmptyString => rstrip root
    | String _ _ => rstrip root +:+ "/" +:+ rstrip (lstrip seg)
    end.
Proof.
  unfold URL.truediv.
  destruct (lstrip seg) as [|c r] eqn:E.
  - rewrite rstrip_app. simpl. apply rstrip_idem.
  - assert (Hne : rstrip (String c r) <> "").
    { intros H. apply lstrip_empty_iff_rstrip_empty in H.
      rewrite <- E, lstrip_idem, E in H. discriminate. }
    rewrite rstrip_app, (rstrip_app "/" (String c r)).
    destruct (rstrip (String c r)) as [|d r'] eqn:E'; [contradiction |].
    reflexivity.
Qed.

Lemma truediv_assoc (root a b : string) :
  (root </> a) </> b = root </> (a </> b).
Proof.
  rewrite (truediv_unfold (root </> a) b), rstrip_truediv.
  rewrite (truediv_unfold root (a </> b)), (truediv_unfold a b), lstrip_app.
  rewrite <- rstrip_lstrip.
  destruct (lstrip a) as [|c r] eqn:E.
  - simpl. now rewrite lstrip_idem.
  - destruct (rstrip (String c r)) as [|d r'] eqn:E'.
    + apply lstrip_empty_iff_rstrip_empty in E'.
      rewrite <- E, lstrip_idem, E in E'. discriminate.
    + now rewrite !append_assoc.
Qed.

Lemma truediv_normal (core rest : string) (i j : nat) :
  ends_with_slash core = false ->
  starts_with_slash rest = false ->
  (core +:+ slashes i) </> (slashes j +:+ rest) = core +:+ "/" +:+ rest.
Proof.
  intros Hc Hr. unfold URL.truediv.
  now rewrite rstrip_slashes, lstrip_slashes, (rstrip_fixed _ Hc), (lstrip_fixed _ Hr).
Qed.

(** Joining two segments one after the other is joining their
    slash-separated concatenation, when the first has no trailing and the
    second no leading slash. *)
Lemma truediv_two_segments (root a b : string) :
  ends_with_slash a = false ->
  starts_with_slash b = false ->
  (root </> a) </> b = root </> (a +:+ "/" +:+ b).
Proof.
  intros Ha Hb. rewrite truediv_assoc. f_equal.
  unfold URL.truediv. now rewrite (rstrip_fixed _ Ha), (lstrip_fixed _ Hb).
Qed.

(** C7. [JoinPath] ([URL.__truediv__]) removes every trailing slash of its
    left operand and every leading slash of its right operand and puts one
    slash between what is left; it is associative, so joining ["a"] and then
    ["b"] onto a root is joining ["a/b"]; and a base with any number of
    trailing slashes joined to a segment with any number of leading slashes
    (0 to 3 in particular) is the base's core, one slash, and the segment's
    rest. *)
Theorem truediv_joins_with_one_slash (root a b : string) :
  (exists i j,
      root = rstrip root +:+ slashes i /\ ends_with_slash (rstrip root) = false /\
      a = slashes j +:+ lstrip a /\ starts_with_slash (lstrip a) = false /\
      root </> a = rstrip root +:+ "/" +:+ lstrip a) /\
  (root </> a) </> b = root </> (a </> b) /\
  (root </> "a") </> "b" = root </> "a/b" /\
  (forall (core rest : string) (i j : nat),
      ends_with_slash core = false ->
      starts_with_slash rest = false ->
      (core +:+ slashes i) </> (slashes j +:+ rest) = core +:+ "/" +:+ rest).
Proof.
  repeat split.
  - destruct (rstrip_split root) as [i Hi], (lstrip_split a) as [j Hj].
    exists i, j. repeat split; auto using rstrip_clean, lstrip_clean.
  - apply truediv_assoc.
  - now rewrite truediv_two_segments.
  - intros. now apply truediv_normal.
Qed.

Lemma truediv_joins_with_one_slash_witness :
  ("https://api.url" +:+ slashes 3) </> (slashes 2 +:+ "users/1")
  = "https://api.url/users/1".
Proof.
  apply (proj2 (proj2 (proj2 (truediv_joins_with_one_slash "" "" ""))))
    with (core := "https://api.url") (rest := "users/1"); reflexivity.
Defined.

End JoinFacts.

(** ** Construction *)

Section ConstructionFacts.

Import Pydantic.

Lemma truthy_nonempty (s : string) : PyStr.truthy s = true <-> s <> "".
Proof. destruct s; simpl; split; congruence. Qed.

Lemma AuthManager_init_token (u t b : arg) (self : AuthManager) :
  AuthManager_init u t b = inr self -> t = PyStr (token self).
Proof.
  unfold AuthManager_init. destruct t; simpl; intros H; inversion H; reflexivity.
Qed.

(** Re-validation in [RequestManager.__init__] always passes and copies the
    three fields. *)
Lemma RequestManager_init_copies (auth : AuthManager) :
  RequestManager_init auth = inr auth.
Proof. destruct auth as [[u|] t [b|]]; reflexivity. Qed.

(** C4, as the code has it.  A token that is left out or passed as [None]
    is refused at construction, with the validation error of the [token]
    field; every string, the empty one included, is accepted and stored
    unchanged; so the token of a constructed manager is exactly the string
    that was passed.  Construction is a pure function: it touches no
    interpreter state and issues no call. *)
Theorem AuthManager_init_requires_token (u b : arg) :
  AuthManager_init u Missing b = inl (field_required "token") /\
  AuthManager_init u PyNone b = inl (string_type "token") /\
  (forall s : string,
      exists self, AuthManager_init u (PyStr s) b = inr self /\ token self = s) /\
  (forall (t : arg) (self : AuthManager),
      AuthManager_init u t b = inr self -> t = PyStr (token self)).
Proof.
  repeat split.
  - intros s. eexists. split; reflexivity.
  - intros t self. apply AuthManager_init_token.
Qed.

Lemma AuthManager_init_requires_token_witness :
  PyStr "T" = PyStr (token {| username := None; token := "T"; base_url := None |}).
Proof.
  apply (proj2 (proj2 (proj2 (AuthManager_init_requires_token PyNone PyNone)))
           (PyStr "T") {| username := None; token := "T"; base_url := None |}).
  reflexivity.
Defined.

(** C4 fails as stated: the empty token is accepted, so a constructed
    manager can have an empty token. *)
Lemma empty_token_is_accepted :
  AuthManager_init Missing (PyStr "") Missing
  = inr {| username := None; token := ""; base_url := Some "https://api.url" |} /\
  ~ (forall (u t b : arg) (self : AuthManager),
        AuthManager_init u t b = inr self -> token self <> "").
Proof.
  split; [reflexivity |].
  intros H.
  apply (H Missing (PyStr "") Missing
           {| username := None; token := ""; base_url := Some "https://api.url" |});
    reflexivity.
Qed.

End ConstructionFacts.

(** ** The API root *)

Section ApiUrlFacts.

Local Open Scope url_scope.

Lemma api_url_unfold (self : AuthManager) :
  api_url self = PyStr.format_opt (base_url self) +:+ "/api/v1".
Proof. reflexivity. Qed.

(** On a base without trailing slash the plain concatenation is the
    normalising join. *)
Lemma api_url_clean_base (self : AuthManager) (b : string) :
  base_url self = Some b ->
  PyStr.ends_with_slash b = false ->
  api_url self = b </> api_prefix.
Proof.
  intros Hb Hc. unfold api_url, URL.truediv. rewrite Hb. simpl PyStr.format_opt.
  now rewrite (rstrip_fixed _ Hc).
Qed.

Lemma api_url_default :
  forall self, AuthManager_init Pydantic.Missing (Pydantic.PyStr "T") Pydantic.Missing = inr self ->
               api_url self = "https://api.url/api/v1".
Proof. intros self H. inversion H. reflexivity. Qed.

(** C1 at the base url of the spec's example.  [api_url] pastes the base
    url, a slash and the prefix together without stripping, so the trailing
    slash of ["https://api.url/"] stays and the root has two slashes, where
    the normalising join gives one. *)
Theorem api_url_keeps_trailing_slash :
  exists self,
    AuthManager_init Pydantic.Missing (Pydantic.PyStr "T") (Pydantic.PyStr "https://api.url/")
    = inr self /\
    api_url self = "https://api.url//api/v1" /\
    api_url self <> "https://api.url/api/v1" /\
    "https://api.url/" </> api_prefix = "https://api.url/api/v1".
Proof.
  eexists. split; [reflexivity |]. repeat split. discriminate.
Qed.

End ApiUrlFacts.

(** ** Running [request] *)

Section RequestFacts.

Variable env : Environment.

Local Open Scope url_scope.

(** Symbolic execution of [request], when the credentials are built. *)
Lemma request_run (st : state) (auth : option BasicAuth) (endpoint method : string)
    (params : option (list (string * string))) :
  request_auth (self_obj st) = inr auth ->
  request env endpoint method params st =
    (match perform env (request_call env st auth endpoint method params) with
     | inl e => inl e
     | inr r => read_json env r
     end,
     {| self_obj := self_obj st;
        ua_draws := S (ua_draws st);
        calls := calls st ++ [request_call env st auth endpoint method params] |}).
Proof.
  intros Ha.
  unfold request, bind, self_attr, headers, user_agent, invoke, lift_result, ret, bind.
  simpl. unfold id. rewrite Ha. unfold request_call. simpl.
  destruct (perform env _); reflexivity.
Qed.

(** Symbolic execution of [request], when building the credentials raises:
    nothing else happens. *)
Lemma request_refused (st : state) (e : Exception) (endpoint method : string)
    (params : option (list (string * string))) :
  request_auth (self_obj st) = inl e ->
  request env endpoint method params st = (inl e, st).
Proof.
  intros Ha.
  unfold request, bind, self_attr, lift_result. simpl. unfold id. now rewrite Ha.
Qed.

Lemma issued_calls_run (self : RequestManager) (auth : option BasicAuth)
    (endpoint method : string) (params : option (list (string * string))) :
  request_auth self = inr auth ->
  issued_calls env self endpoint method params
  = [request_call env (initial_state self) auth endpoint method params].
Proof. intros Ha. unfold issued_calls, run_request. now rewrite (request_run _ auth). Qed.

Lemma issued_calls_refused (self : RequestManager) (e : Exception)
    (endpoint method : string) (params : option (list (string * string))) :
  request_auth self = inl e ->
  issued_calls env self endpoint method params = [].
Proof. intros Ha. unfold issued_calls, run_request. now rewrite (request_refused _ e). Qed.

(** When [request_auth] builds credentials, none, or raises. *)
Lemma request_auth_no_username (self : RequestManager) :
  username self = None -> request_auth self = inr None.
Proof. intros H. unfold request_auth. now rewrite H. Qed.

Lemma request_auth_empty (self : RequestManager) (u : string) :
  username self = Some u -> u = "" \/ token self = "" -> request_auth self = inr None.
Proof.
  intros Hu H. unfold request_auth. rewrite Hu.
  destruct H as [-> | ->]; [reflexivity |]. simpl. now rewrite andb_false_r.
Qed.

Lemma truthy_true (s : string) : s <> "" -> PyStr.truthy s = true.
Proof. destruct s; [congruence | reflexivity]. Qed.

Lemma request_auth_built (self : RequestManager) (u : string) :
  username self = Some u -> u <> "" -> token self <> "" ->
  PyStr.contains_colon u = false ->
  request_auth self
  = inr (Some {| login := u; password := token self; encoding := "latin1" |}).
Proof.
  intros Hu Hne Ht Hc. unfold request_auth, BasicAuth_new.
  now rewrite Hu, (truthy_true _ Hne), (truthy_true _ Ht), Hc.
Qed.

Lemma request_auth_colon (self : RequestManager) (u : string) :
  username self = Some u -> u <> "" -> token self <> "" ->
  PyStr.contains_colon u = true ->
  request_auth self = inl (Raised "ValueError" colon_in_login).
Proof.
  intros Hu Hne Ht Hc. unfold request_auth, BasicAuth_new.
  now rewrite Hu, (truthy_true _ Hne), (truthy_true _ Ht), Hc.
Qed.

(** *** The frame: [self] is only read *)

Lemma preserves_ret {A} (a : A) : preserves_self (ret a).
Proof. intros st. reflexivity. Qed.

Lemma preserves_bind {A B} (m : M A) (k : A -> M B) :
  preserves_self m -> (forall a, preserves_self (k a)) -> preserves_self (bind m k).
Proof.
  intros Hm Hk st. unfold bind. specialize (Hm st).
  destruct (m st) as [[e|a] st']; simpl in *; [exact Hm |].
  now rewrite Hk.
Qed.

Lemma preserves_self_attr {A} (f : RequestManager -> A) : preserves_self (self_attr f).
Proof. intros st. reflexivity. Qed.

Lemma preserves_lift_result {A} (r : Exception + A) : preserves_self (lift_result r).
Proof. intros st. reflexivity. Qed.

Lemma preserves_user_agent : preserves_self (user_agent env).
Proof. intros st. reflexivity. Qed.

Lemma preserves_invoke session requester url hdrs params :
  preserves_self (invoke env session requester url hdrs params).
Proof. intros st. reflexivity. Qed.

Ltac frame_step :=
  first [ apply preserves_ret
        | apply preserves_self_attr
        | apply preserves_lift_result
        | apply preserves_user_agent
        | apply preserves_invoke
        | progress cbv zeta
        | apply preserves_bind; [| intros ?] ].

Lemma preserves_headers (bearer : bool) : preserves_self (headers env bearer).
Proof. unfold headers. repeat frame_step. Qed.

Lemma preserves_request (endpoint method : string)
    (params : option (list (string * string))) :
  preserves_self (request env endpoint method params).
Proof. unfold request. repeat first [apply preserves_headers | frame_step]. Qed.

End RequestFacts.

(** ** The header set *)

Section HeaderFacts.

Variables (self : AuthManager) (ua : string).

Lemma headers_dict_content_type (bearer : bool) :
  headers_dict self ua bearer !! "Content-Type" = Some "application/json".
Proof. unfold headers_dict. destruct bearer; by simplify_map_eq. Qed.

Lemma headers_dict_accept (bearer : bool) :
  headers_dict self ua bearer !! "Accept" = Some "application/json".
Proof. unfold headers_dict. destruct bearer; by simplify_map_eq. Qed.

Lemma headers_dict_user_agent (bearer : bool) :
  headers_dict self ua bearer !! "User-Agent" = Some ua.
Proof. unfold headers_dict. destruct bearer; by simplify_map_eq. Qed.

Lemma headers_dict_authorization (bearer : bool) :
  headers_dict self ua bearer !! "Authorization" =
    if bearer then Some ("Bearer " +:+ token self) else None.
Proof. unfold headers_dict. destruct bearer; by simplify_map_eq. Qed.

Lemma headers_dict_dom (bearer : bool) :
  dom (headers_dict self ua bearer) =
    if bearer
    then ({[ "Content-Type"; "Accept"; "User-Agent"; "Authorization" ]} : gset string)
    else {[ "Content-Type"; "Accept"; "User-Agent" ]}.
Proof.
  unfold headers_dict.
  destruct bearer;
    rewrite dom_union_L, !dom_insert_L, ?dom_singleton_L, !dom_empty_L; set_solver.
Qed.

End HeaderFacts.

Lemma headers_run (env : Environment) (bearer : bool) (st : state) :
  fst (headers env bearer st)
  = inr (headers_dict (self_obj st) (generate_user_agent env (ua_draws st)) bearer).
Proof. reflexivity. Qed.

(** C8. With a generator that hands out non-empty strings, [headers(True)]
    has exactly the keys [Content-Type], [Accept], [User-Agent] and
    [Authorization], with the values [application/json] (twice), the
    generated non-empty user agent and [Bearer <token>]; [headers(False)]
    has exactly the first three, with the same values. *)
Theorem headers_exact_keys (env : Environment) (st : state) :
  (forall n, generate_user_agent env n <> "") ->
  exists (ua : string) (with_bearer without_bearer : gmap string string),
    ua <> "" /\
    fst (headers env true st) = inr with_bearer /\
    fst (headers env false st) = inr without_bearer /\
    dom with_bearer
    = ({[ "Content-Type"; "Accept"; "User-Agent"; "Authorization" ]} : gset string) /\
    with_bearer !! "Content-Type" = Some "application/json" /\
    with_bearer !! "Accept" = Some "application/json" /\
    with_bearer !! "User-Agent" = Some ua /\
    with_bearer !! "Authorization" = Some ("Bearer " +:+ token (self_obj st)) /\
    dom without_bearer = ({[ "Content-Type"; "Accept"; "User-Agent" ]} : gset string) /\
    without_bearer !! "Content-Type" = Some "application/json" /\
    without_bearer !! "Accept" = Some "application/json" /\
    without_bearer !! "User-Agent" = Some ua.
Proof.
  intros Hua.
  exists (generate_user_agent env (ua_draws st)).
  do 2 eexists. split; [apply Hua |].
  rewrite !headers_run. do 2 (split; [reflexivity |]).
  rewrite !headers_dict_dom, !headers_dict_content_type, !headers_dict_accept,
    !headers_dict_user_agent, !headers_dict_authorization.
  repeat split.
Qed.

Lemma headers_exact_keys_witness :
  exists (ua : string) (with_bearer without_bearer : gmap string string),
    ua <> "" /\
    fst (headers (sample_env ok_response) true
           (initial_state {| username := None; token := "T"; base_url := None |}))
    = inr with_bearer /\
    fst (headers (sample_env ok_response) false
           (initial_state {| username := None; token := "T"; base_url := None |}))
    = inr without_bearer /\
    dom with_bearer
    = ({[ "Content-Type"; "Accept"; "User-Agent"; "Authorization" ]} : gset string) /\
    with_bearer !! "Content-Type" = Some "application/json" /\
    with_bearer !! "Accept" = Some "application/json" /\
    with_bearer !! "User-Agent" = Some ua /\
    with_bearer !! "Authorization" = Some "Bearer T" /\
    dom without_bearer = ({[ "Content-Type"; "Accept"; "User-Agent" ]} : gset string) /\
    without_bearer !! "Content-Type" = Some "application/json" /\
    without_bearer !! "Accept" = Some "application/json" /\
    without_bearer !! "User-Agent" = Some ua.
Proof.
  apply (headers_exact_keys (sample_env ok_response)
           (initial_state {| username := None; token := "T"; base_url := None |})).
  intros n. simpl. discriminate.
Defined.

(** ** The target URL *)

Section UrlFacts.

Local Open Scope url_scope.

Lemma rstrip_api_url (self : AuthManager) : PyStr.rstrip (api_url self) = api_url self.
Proof. unfold api_url. rewrite rstrip_app. reflexivity. Qed.

(** [request] joins the API root and the endpoint with the normalising
    operator; the root itself is taken as [api_url] built it. *)
Lemma request_url (env : Environment) (self : RequestManager) (auth : option BasicAuth)
    (endpoint method : string) (params : option (list (string * string))) :
  request_auth self = inr auth ->
  map call_url (issued_calls env self endpoint method params)
  = [api_url self </> PyStr.lstrip endpoint] /\
  api_url self </> PyStr.lstrip endpoint
  = PyStr.format_opt (base_url self) +:+ "/api/v1/" +:+ PyStr.lstrip endpoint.
Proof.
  intros Ha. rewrite (issued_calls_run _ _ auth) by exact Ha. split; [reflexivity |].
  unfold URL.truediv. rewrite rstrip_api_url, lstrip_idem.
  unfold api_url. now rewrite append_assoc.
Qed.

(** C3 at the spec's example.  The endpoint is joined to the root with one
    slash, but the root of the base url ["https://api.url/"] already has
    two, so [request("users/1")] targets
    ["https://api.url//api/v1/users/1"]. *)
Theorem request_url_keeps_trailing_slash (env : Environment) :
  exists self,
    AuthManager_init Pydantic.Missing (Pydantic.PyStr "T") (Pydantic.PyStr "https://api.url/")
    = inr self /\
    map call_url (issued_calls env self "users/1" "GET" None)
    = ["https://api.url//api/v1/users/1"] /\
    map call_url (issued_calls env self "users/1" "GET" None)
    <> ["https://api.url/api/v1/users/1"].
Proof.
  exists {| username := None; token := "T"; base_url := Some "https://api.url/" |}.
  split; [reflexivity |].
  rewrite (proj1 (request_url env
                    {| username := None; token := "T"; base_url := Some "https://api.url/" |}
                    None "users/1" "GET" None eq_refl)).
  split; [reflexivity | discriminate].
Qed.

End UrlFacts.

(** ** The authentication mode *)

Section AuthFacts.

Variable env : Environment.

Lemma request_auth_cases (self : RequestManager) :
  (exists u, username self = Some u /\ u <> "" /\ token self <> "" /\
             PyStr.contains_colon u = false /\
             request_auth self
             = inr (Some {| login := u; password := token self; encoding := "latin1" |})) \/
  (exists u, username self = Some u /\ u <> "" /\ token self <> "" /\
             PyStr.contains_colon u = true /\
             request_auth self = inl (Raised "ValueError" colon_in_login)) \/
  (~ (exists u, username self = Some u /\ u <> "" /\ token self <> "") /\
   request_auth self = inr None).
Proof.
  destruct (username self) as [u|] eqn:Hu.
  - destruct (PyStr.truthy u) eqn:Eu.
    + destruct (PyStr.truthy (token self)) eqn:Et.
      * apply truthy_nonempty in Eu, Et.
        destruct (PyStr.contains_colon u) eqn:Ec.
        -- right; left. exists u.
           split; [reflexivity |]. split; [exact Eu |]. split; [exact Et |].
           split; [exact Ec |]. now apply (request_auth_colon self u).
        -- left. exists u.
           split; [reflexivity |]. split; [exact Eu |]. split; [exact Et |].
           split; [exact Ec |]. now apply (request_auth_built self u).
      * right; right. split.
        -- intros (u' & _ & _ & Ht). apply truthy_nonempty in Ht. congruence.
        -- apply (request_auth_empty self u Hu). right.
           destruct (token self); [reflexivity | discriminate].
    + right; right. split.
      * intros (u' & [= <-] & Hne & _). apply truthy_nonempty in Hne. congruence.
      * apply (request_auth_empty self u Hu). left.
        destruct u; [reflexivity | discriminate].
  - right; right. split.
    + intros (u' & [=] & _).
    + now apply request_auth_no_username.
Qed.

(** C2, as the code has it.  One of three things happens.  The username and
    the token are both non-empty and the username has no colon: the one
    call made carries [BasicAuth(username, token)] and its headers have no
    [Authorization] key.  They are both non-empty and the username has a
    colon: building the credentials raises [ValueError], which is the
    result, and no call is made.  Otherwise: the one call made carries no
    Basic credentials and its headers have [Authorization: Bearer <token>].
    On every call that is made, Basic credentials are present exactly when
    the [Authorization] header is absent. *)
Theorem request_auth_mode (self : RequestManager) (endpoint method : string)
    (params : option (list (string * string))) :
  ((exists u c,
       username self = Some u /\ u <> "" /\ token self <> "" /\
       PyStr.contains_colon u = false /\
       issued_calls env self endpoint method params = [c] /\
       call_auth c = Some {| login := u; password := token self; encoding := "latin1" |} /\
       call_headers c !! "Authorization" = None)
   \/
   (exists u,
       username self = Some u /\ u <> "" /\ token self <> "" /\
       PyStr.contains_colon u = true /\
       issued_calls env self endpoint method params = [] /\
       fst (run_request env self endpoint method params)
       = inl (Raised "ValueError" colon_in_login))
   \/
   (~ (exists u, username self = Some u /\ u <> "" /\ token self <> "") /\
    exists c,
      issued_calls env self endpoint method params = [c] /\
      call_auth c = None /\
      call_headers c !! "Authorization" = Some ("Bearer " +:+ token self))) /\
  (forall c, In c (issued_calls env self endpoint method params) ->
             (call_auth c = None <-> is_Some (call_headers c !! "Authorization"))).
Proof.
  destruct (request_auth_cases self)
    as [(u & Hu & Hne & Ht & Hc & Ha) | [(u & Hu & Hne & Ht & Hc & Ha) | [Hn Ha]]].
  - rewrite (issued_calls_run env self _ endpoint method params Ha). split.
    + left. exists u. eexists. repeat split; eauto.
      all: cbn [request_call call_headers]; now rewrite headers_dict_authorization.
    + intros c [<- | []]. cbn [request_call call_auth call_headers].
      rewrite headers_dict_authorization. simpl.
      split; [discriminate | intros [x Hx]; discriminate].
  - rewrite (issued_calls_refused env self _ endpoint method params Ha). split.
    + right; left. exists u. repeat split; auto.
      unfold run_request.
      now rewrite (request_refused env (initial_state self) _ endpoint method params Ha).
    + intros c [].
  - rewrite (issued_calls_run env self _ endpoint method params Ha). split.
    + right; right. split; [exact Hn |]. eexists. repeat split.
      all: cbn [request_call call_headers]; now rewrite headers_dict_authorization.
    + intros c [<- | []]. cbn [request_call call_auth call_headers].
      rewrite headers_dict_authorization. simpl. split; [eauto | reflexivity].
Qed.

(** C9. A manager whose username is [None] and one whose username is the
    empty string (token and base url being the same) make the same call and
    get the same result: no Basic credentials, and the header
    [Authorization: Bearer <token>]. *)
Theorem empty_username_like_none (tok : string) (base : option string)
    (endpoint method : string) (params : option (list (string * string))) :
  let absent := {| username := None; token := tok; base_url := base |} in
  let empty := {| username := Some ""; token := tok; base_url := base |} in
  issued_calls env absent endpoint method params
  = issued_calls env empty endpoint method params /\
  fst (run_request env absent endpoint method params)
  = fst (run_request env empty endpoint method params) /\
  exists c,
    issued_calls env empty endpoint method params = [c] /\
    call_auth c = None /\
    call_headers c !! "Authorization" = Some ("Bearer " +:+ tok).
Proof.
  intros absent empty.
  assert (Ha : request_auth absent = inr None) by reflexivity.
  assert (He : request_auth empty = inr None) by reflexivity.
  assert (Hc : request_call env (initial_state absent) None endpoint method params
               = request_call env (initial_state empty) None endpoint method params)
    by reflexivity.
  repeat split.
  - now rewrite (issued_calls_run env _ _ _ _ _ Ha), (issued_calls_run env _ _ _ _ _ He), Hc.
  - unfold run_request.
    rewrite (request_run env (initial_state absent) None) by exact Ha.
    rewrite (request_run env (initial_state empty) None) by exact He.
    now rewrite Hc.
  - eexists. split; [apply (issued_calls_run env _ _ _ _ _ He) |].
    split; [reflexivity |].
    cbn [request_call call_headers]. now rewrite headers_dict_authorization.
Qed.

(** C10. Whatever [request] returns, a value or an exception, the object
    [self] is afterwards what it was before: username, token and base url
    are unchanged. *)
Theorem request_leaves_self_unchanged (st : state) (endpoint method : string)
    (params : option (list (string * string))) :
  let st' := snd (request env endpoint method params st) in
  self_obj st' = self_obj st /\
  username (self_obj st') = username (self_obj st) /\
  token (self_obj st') = token (self_obj st) /\
  base_url (self_obj st') = base_url (self_obj st).
Proof.
  intros st'. assert (H : self_obj st' = self_obj st) by apply preserves_request.
  rewrite H. repeat split.
Qed.

(** C6, as the code has it.  [request] catches nothing and wraps nothing.
    If building the Basic credentials raises, that exception is the result
    and nothing else has happened.  Otherwise the requester is invoked
    exactly once: if it raises, that exception is the result; if it answers
    and decoding the body raises, that exception is the result; if it
    answers and the body decodes, the decoded value is the result, whatever
    the status of the response.  In every case at most one call is made. *)
Theorem request_failures_propagate (st : state) (endpoint method : string)
    (params : option (list (string * string))) :
  (forall e, request_auth (self_obj st) = inl e ->
             request env endpoint method params st = (inl e, st)) /\
  (forall auth, request_auth (self_obj st) = inr auth ->
     exists c,
       calls (snd (request env endpoint method params st)) = (calls st ++ [c])%list /\
       (forall e, perform env c = inl e ->
                  fst (request env endpoint method params st) = inl e) /\
       (forall r e, perform env c = inr r -> read_json env r = inl e ->
                    fst (request env endpoint method params st) = inl e) /\
       (forall r j, perform env c = inr r -> read_json env r = inr j ->
                    fst (request env endpoint method params st) = inr j)) /\
  List.length (calls (snd (request env endpoint method params st)))
  <= S (List.length (calls st)).
Proof.
  split; [| split].
  - intros e Ha. now apply request_refused.
  - intros auth Ha.
    exists (request_call env st auth endpoint method params).
    rewrite (request_run env st auth) by exact Ha. cbn [fst snd calls].
    repeat split.
    + intros e ->. reflexivity.
    + intros r e -> H. exact H.
    + intros r j -> H. exact H.
  - destruct (request_auth (self_obj st)) as [e|auth] eqn:Ha.
    + rewrite (request_refused env st e) by exact Ha. simpl. lia.
    + rewrite (request_run env st auth) by exact Ha. cbn [snd calls].
      rewrite length_app. simpl. lia.
Qed.

End AuthFacts.

(** ** Choosing the requester *)

Section DispatchFacts.

Variable env : Environment.

Lemma verb_of_name_verb_name (v : verb) : verb_of_name (verb_name v) = Some v.
Proof. destruct v; reflexivity. Qed.

Lemma verb_of_name_none (name : string) :
  (forall v, name <> verb_name v) -> verb_of_name name = None.
Proof.
  intros H. unfold verb_of_name.
  destruct (find _ all_verbs) as [v|] eqn:E; [| reflexivity].
  apply find_some in E. destruct E as [_ E].
  apply String.eqb_eq in E. symmetry in E. now apply H in E.
Qed.

Lemma lower_char_idem (c : ascii) : PyStr.lower_char (PyStr.lower_char c) = PyStr.lower_char c.
Proof.
  unfold PyStr.lower_char.
  destruct (Nat.leb 65 (nat_of_ascii c) && Nat.leb (nat_of_ascii c) 90) eqn:E.
  - apply andb_true_iff in E. destruct E as [E1 E2].
    apply Nat.leb_le in E1, E2.
    rewrite nat_ascii_embedding by lia.
    replace (Nat.leb (nat_of_ascii c + 32) 90) with false
      by (symmetry; apply Nat.leb_gt; lia).
    now rewrite andb_false_r.
  - now rewrite E.
Qed.

Lemma lower_ascii_idem (s : string) :
  PyStr.lower_ascii (PyStr.lower_ascii s) = PyStr.lower_ascii s.
Proof.
  induction s as [|c r IH]; simpl; [reflexivity |].
  now rewrite lower_char_idem, IH.
Qed.

Lemma lower_char_ascii (c : ascii) :
  Nat.ltb (nat_of_ascii c) 128 = true ->
  Nat.ltb (nat_of_ascii (PyStr.lower_char c)) 128 = true.
Proof.
  intros H. unfold PyStr.lower_char.
  destruct (Nat.leb 65 (nat_of_ascii c) && Nat.leb (nat_of_ascii c) 90) eqn:E; [| exact H].
  apply andb_true_iff in E. destruct E as [E1 E2]. apply Nat.leb_le in E1, E2.
  rewrite nat_ascii_embedding by lia. apply Nat.ltb_lt. lia.
Qed.

Lemma is_ascii_lower_ascii (s : string) :
  PyStr.is_ascii s = true -> PyStr.is_ascii (PyStr.lower_ascii s) = true.
Proof.
  induction s as [|c r IH]; simpl; [reflexivity |].
  intros H. apply andb_true_iff in H. destruct H as [Hc Hr].
  now rewrite (lower_char_ascii _ Hc), (IH Hr).
Qed.

(** On an ASCII string [str.lower] needs no table, and lower-casing twice
    is lower-casing once. *)
Lemma lower_of_ascii (ul : string -> string) (s : string) :
  PyStr.is_ascii s = true -> PyStr.lower ul s = PyStr.lower_ascii s.
Proof. intros H. unfold PyStr.lower. now rewrite H. Qed.

Lemma lower_idem_ascii (ul : string -> string) (s : string) :
  PyStr.is_ascii s = true -> PyStr.lower ul (PyStr.lower ul s) = PyStr.lower ul s.
Proof.
  intros H. rewrite (lower_of_ascii ul s H).
  rewrite (lower_of_ascii ul _ (is_ascii_lower_ascii s H)). apply lower_ascii_idem.
Qed.

Lemma getattr_verb (session : ClientSession) (v : verb) (default : attribute) :
  getattr env session (verb_name v) default = Method v.
Proof. unfold getattr. now rewrite verb_of_name_verb_name. Qed.

Lemma getattr_absent (session : ClientSession) (name : string) (default : attribute) :
  (forall v, name <> verb_name v) -> has_member env name = false ->
  getattr env session name default = default.
Proof. intros Hv Hm. unfold getattr. now rewrite (verb_of_name_none _ Hv), Hm. Qed.

Lemma getattr_member (session : ClientSession) (name : string) (default : attribute) :
  (forall v, name <> verb_name v) -> has_member env name = true ->
  getattr env session name default = Member name.
Proof. intros Hv Hm. unfold getattr. now rewrite (verb_of_name_none _ Hv), Hm. Qed.

End DispatchFacts.

(** C5 at the method ["CLOSE"].  On a session that has a [close]
    attribute, as aiohttp's has, the lower-cased name is found on the
    session, so the default [session.get] is not used: [request] calls
    [session.close] with the request's arguments and that call fails.  The
    fallback works where the name is no attribute: ["XPATCH"] issues a
    GET. *)
Theorem close_does_not_fall_back_to_get :
  map call_requester
    (issued_calls (sample_env ok_response)
       {| username := None; token := "T"; base_url := Some "https://api.url" |}
       "users/1" "CLOSE" None)
  = [Member "close"] /\
  map call_requester
    (issued_calls (sample_env ok_response)
       {| username := None; token := "T"; base_url := Some "https://api.url" |}
       "users/1" "CLOSE" None)
  <> [Method GET] /\
  fst (run_request (sample_env ok_response)
         {| username := None; token := "T"; base_url := Some "https://api.url" |}
         "users/1" "CLOSE" None)
  = inl (Raised "TypeError" "close") /\
  map call_requester
    (issued_calls (sample_env ok_response)
       {| username := None; token := "T"; base_url := Some "https://api.url" |}
       "users/1" "XPATCH" None)
  = [Method GET].
Proof.
  rewrite !(issued_calls_run (sample_env ok_response) _ None) by reflexivity.
  unfold run_request.
  rewrite (request_run (sample_env ok_response) _ None) by reflexivity.
  repeat split. discriminate.
Qed.

(** C2 fails as stated: with the non-empty username ["a:b"] and the
    non-empty token ["T"] no call is made at all, so the secret travels by
    neither mechanism; the request ends in the [ValueError] of the
    credentials. *)
Lemma colon_username_sends_nothing :
  issued_calls (sample_env ok_response)
    {| username := Some "a:b"; token := "T"; base_url := Some "https://api.url" |}
    "users/1" "GET" None
  = [] /\
  fst (run_request (sample_env ok_response)
         {| username := Some "a:b"; token := "T"; base_url := Some "https://api.url" |}
         "users/1" "GET" None)
  = inl (Raised "ValueError" colon_in_login) /\
  ~ (exists c,
        In c (issued_calls (sample_env ok_response)
                {| username := Some "a:b"; token := "T";
                   base_url := Some "https://api.url" |}
                "users/1" "GET" None) /\
        (is_Some (call_auth c) \/ is_Some (call_headers c !! "Authorization"))).
Proof.
  assert (Ha : request_auth
                 {| username := Some "a:b"; token := "T";
                    base_url := Some "https://api.url" |}
               = inl (Raised "ValueError" colon_in_login)) by reflexivity.
  rewrite (issued_calls_refused _ _ _ "users/1" "GET" None Ha).
  unfold run_request.
  rewrite (request_refused (sample_env ok_response) (initial_state _) _ _ _ _ Ha).
  repeat split. intros (c & [] & _).
Qed.

(** C6 fails as stated.  A response with status 500 whose body is JSON is
    no failure: its decoded body is returned.  And failures keep the
    exception the library raised: a refused connection and an undecodable
    body reach the caller as exceptions of two different classes. *)
Lemma error_response_is_returned :
  fst (run_request (sample_env (inr {| status := 500; body := "null" |}))
         {| username := None; token := "T"; base_url := Some "https://api.url" |}
         "users/1" "GET" None)
  = inr JNull /\
  fst (run_request (sample_env (inl (Raised "ClientConnectorError" "refused")))
         {| username := None; token := "T"; base_url := Some "https://api.url" |}
         "users/1" "GET" None)
  = inl (Raised "ClientConnectorError" "refused") /\
  fst (run_request (sample_env (inr {| status := 200; body := "oops" |}))
         {| username := None; token := "T"; base_url := Some "https://api.url" |}
         "users/1" "GET" None)
  = inl (Raised "JSONDecodeError" "oops") /\
  exception_class (Raised "ClientConnectorError" "refused")
  <> exception_class (Raised "JSONDecodeError" "oops").
Proof.
  unfold run_request.
  rewrite !(request_run _
              (initial_state
                 {| username := None; token := "T"; base_url := Some "https://api.url" |})
              None) by reflexivity.
  repeat split. discriminate.
Qed.

(** *** Concrete runs *)

Example sample_lower_kelvin :
  PyStr.lower sample_unicode_lower
    ("COO" +:+ String "226"%char (String "132"%char (String "170"%char "IE_JAR")))
  = "cookie_jar".
Proof. reflexivity. Qed.

Example request_get_runs :
  fst (run_request (sample_env ok_response)
         {| username := Some "alice"; token := "T"; base_url := Some "https://api.url" |}
         "/users/1" "gEt" None)
  = inr (JArray [JNumber 1]).
Proof.
  unfold run_request.
  rewrite (request_run _ _ (Some {| login := "alice"; password := "T";
                                    encoding := "latin1" |})) by reflexivity.
  reflexivity.
Qed.

Lemma request_failures_propagate_witness :
  fst (run_request (sample_env (inl (Raised "ClientConnectorError" "refused")))
         {| username := None; token := "T"; base_url := Some "https://api.url" |}
         "users/1" "GET" None)
  = inl (Raised "ClientConnectorError" "refused").
Proof.
  destruct (proj1 (proj2 (request_failures_propagate
              (sample_env (inl (Raised "ClientConnectorError" "refused")))
              (initial_state
                 {| username := None; token := "T"; base_url := Some "https://api.url" |})
              "users/1" "GET" None)) None eq_refl) as (c & Hc & He & _).
  apply He.
  rewrite (request_run _ _ None) in Hc by reflexivity.
  cbn [snd calls initial_state app] in Hc.
  injection Hc as <-. reflexivity.
Defined.

(** * Further properties of the code *)

(** What [request] logs, by the outcome of building the credentials. *)
Lemma issued_calls_cases (env : Environment) (self : RequestManager)
    (endpoint method : string) (params : option (list (string * string))) :
  issued_calls env self endpoint method params =
    match request_auth self with
    | inl _ => []
    | inr auth => [request_call env (initial_state self) auth endpoint method params]
    end.
Proof.
  destruct (request_auth self) as [e|auth] eqn:Ha.
  - now apply (issued_calls_refused env self e).
  - now apply issued_calls_run.
Qed.

(** ** More on the join operator *)

Section JoinEdgeFacts.

Import PyStr.
Local Open Scope url_scope.

Lemma length_append (a b : string) :
  String.length (a +:+ b) = String.length a + String.length b.
Proof. induction a as [|c r IH]; simpl; [reflexivity | now rewrite IH]. Qed.

Lemma length_slashes (n : nat) : String.length (slashes n) = n.
Proof. induction n as [|n IH]; simpl; [reflexivity | now rewrite IH]. Qed.

Lemma length_rstrip (s : string) :
  String.length (rstrip s) <= String.length s /\
  (String.length (rstrip s) = String.length s -> rstrip s = s).
Proof.
  destruct (rstrip_split s) as [n Hn].
  assert (L : String.length s = String.length (rstrip s) + n).
  { rewrite Hn at 1. now rewrite length_append, length_slashes. }
  split; [lia |].
  intros E. assert (n = 0) by lia. subst n.
  simpl in Hn. now rewrite append_empty_r in Hn.
Qed.

Lemma length_lstrip (s : string) :
  String.length (lstrip s) <= String.length s /\
  (String.length (lstrip s) = String.length s -> lstrip s = s).
Proof.
  destruct (lstrip_split s) as [n Hn].
  assert (L : String.length s = n + String.length (lstrip s)).
  { rewrite Hn at 1. now rewrite length_append, length_slashes. }
  split; [lia |].
  intros E. assert (n = 0) by lia. subst n. now simpl in Hn.
Qed.

Lemma rstrip_fixed_clean (s : string) : rstrip s = s -> ends_with_slash s = false.
Proof. intros H. rewrite <- H. apply rstrip_clean. Qed.

Lemma lstrip_fixed_clean (s : string) : lstrip s = s -> starts_with_slash s = false.
Proof. intros H. rewrite <- H. apply lstrip_clean. Qed.

(** X1. Slashes at the seam do not matter: any run of slashes added at the
    end of the left operand or at the start of the right operand leaves the
    join unchanged, and so does stripping the operands beforehand. *)
Theorem truediv_ignores_seam_slashes (root seg : string) (n m : nat) :
  (root +:+ slashes n) </> (slashes m +:+ seg) = root </> seg /\
  rstrip root </> lstrip seg = root </> seg.
Proof.
  unfold URL.truediv. split.
  - now rewrite rstrip_slashes, lstrip_slashes.
  - now rewrite rstrip_idem, lstrip_idem.
Qed.

(** X2. Empty operands.  Joining a segment that is empty or made of
    slashes only leaves the stripped root with one trailing slash; joining
    onto a root that is empty or made of slashes only gives a path that
    starts with exactly one slash; both at once give ["/"]. *)
Theorem truediv_empty_operands (root seg : string) (n : nat) :
  root </> slashes n = rstrip root +:+ "/" /\
  slashes n </> seg = "/" +:+ lstrip seg /\
  ends_with_slash (root </> slashes n) = true /\
  starts_with_slash (slashes n </> seg) = true /\
  slashes n </> slashes n = "/".
Proof.
  assert (L : lstrip (slashes n) = "").
  { rewrite <- (append_empty_r (slashes n)). apply lstrip_slashes. }
  assert (E : forall s, ends_with_slash (s +:+ "/") = true).
  { unfold ends_with_slash. induction s as [|c r IH]; [reflexivity |].
    change (String c r +:+ "/") with (String c (r +:+ "/")).
    rewrite last_cons. destruct (r +:+ "/") eqn:Er; [| exact IH].
    destruct r; discriminate. }
  unfold URL.truediv. rewrite L, rstrip_slashes_only.
  repeat split; auto.
Qed.

(** X3. The length of a join is at least one and at most the two lengths
    plus one; the upper bound is reached exactly when the left operand has
    no trailing slash and the right operand no leading slash. *)
Theorem truediv_length (root seg : string) :
  1 <= String.length (root </> seg) /\
  String.length (root </> seg) <= String.length root + String.length seg + 1 /\
  (String.length (root </> seg) = String.length root + String.length seg + 1
   <-> ends_with_slash root = false /\ starts_with_slash seg = false).
Proof.
  unfold URL.truediv. rewrite !length_append.
  change (String.length "/") with 1.
  destruct (length_rstrip root) as [Lr Er], (length_lstrip seg) as [Ll El].
  repeat split; try lia.
  - apply rstrip_fixed_clean, Er. lia.
  - apply lstrip_fixed_clean, El. lia.
  - intros [Hr Hs]. rewrite (rstrip_fixed _ Hr), (lstrip_fixed _ Hs). lia.
Qed.

(** X4. In a chain of joins a segment that is empty or made of slashes
    only disappears: joining it and then [seg] is joining [seg]. *)
Theorem truediv_empty_segment_neutral (root seg : string) (n : nat) :
  (root </> slashes n) </> seg = root </> seg.
Proof.
  rewrite truediv_assoc. unfold URL.truediv at 1 3. f_equal. f_equal.
  unfold URL.truediv. rewrite rstrip_slashes_only. simpl. apply lstrip_idem.
Qed.

End JoinEdgeFacts.

(** ** More on construction and the API root *)

Section RootEdgeFacts.

Import Pydantic.
Local Open Scope url_scope.

Lemma append_inj_l (a b x : string) : a +:+ x = b +:+ x -> a = b.
Proof.
  revert b. induction a as [|c r IH]; intros [|d s] H.
  - reflexivity.
  - apply (f_equal String.length) in H. simpl in H. rewrite length_append in H. lia.
  - apply (f_equal String.length) in H. simpl in H. rewrite length_append in H. lia.
  - simpl in H. injection H as -> H. f_equal. now apply IH.
Qed.

(** X5. For a base url that is a string, [api_url] is the normalising join
    of the base url and the prefix exactly when the base url has no
    trailing slash. *)
Theorem api_url_normal_iff_clean_base (u : option string) (t b : string) :
  api_url {| username := u; token := t; base_url := Some b |} = b </> api_prefix
  <-> PyStr.ends_with_slash b = false.
Proof.
  split.
  - unfold api_url, URL.truediv. simpl PyStr.format_opt. simpl PyStr.lstrip.
    intros H. apply append_inj_l in H.
    apply rstrip_fixed_clean. now symmetry.
  - intros H. now apply api_url_clean_base.
Qed.

(** X6. [base_url] left out and [base_url=None] differ.  Left out, the
    default ["https://api.url"] is stored and the root is
    ["https://api.url/api/v1"].  Passed as [None], construction succeeds,
    [None] is stored, the root is ["None/api/v1"], and the call a request
    makes targets ["None/api/v1/<endpoint>"]; no call is made when building
    the Basic credentials raises. *)
Theorem base_url_none_is_formatted (env : Environment) (u : arg) (t : string)
    (endpoint method : string) (params : option (list (string * string))) :
  (exists self,
      AuthManager_init u (PyStr t) Missing = inr self /\
      base_url self = Some "https://api.url" /\
      api_url self = "https://api.url/api/v1") /\
  (exists self,
      AuthManager_init u (PyStr t) PyNone = inr self /\
      base_url self = None /\
      api_url self = "None/api/v1" /\
      map call_url (issued_calls env self endpoint method params)
      = match request_auth self with
        | inl _ => []
        | inr _ => ["None/api/v1/" +:+ PyStr.lstrip endpoint]
        end).
Proof.
  split; eexists; (split; [reflexivity |]); repeat split.
  rewrite issued_calls_cases. destruct (request_auth _); [reflexivity |].
  cbn [map request_call call_url self_obj initial_state].
  unfold URL.truediv. now rewrite lstrip_idem.
Qed.

(** X7. Wrapping a manager in a [RequestManager] validates the three fields
    again and never fails: the fields are copied as they are, an empty
    token and a [None] base url included, and the default base url is not
    put back in. *)
Theorem RequestManager_init_keeps_fields (auth : AuthManager) :
  exists rm,
    RequestManager_init auth = inr rm /\
    username rm = username auth /\
    token rm = token auth /\
    base_url rm = base_url auth /\
    api_url rm = api_url auth.
Proof.
  exists auth. split; [| repeat split].
  unfold RequestManager_init, AuthManager_init. simpl.
  destruct auth as [[u|] t [b|]]; reflexivity.
Qed.

End RootEdgeFacts.

(** ** More on the header set *)

Section HeaderEdgeFacts.

(** X8. For one user agent, the header set without bearer is the header
    set with bearer minus the [Authorization] entry; it is contained in it,
    and the two have three and four entries. *)
Theorem headers_without_bearer_is_delete (self : AuthManager) (ua : string) :
  headers_dict self ua false = delete "Authorization" (headers_dict self ua true) /\
  headers_dict self ua false ⊆ headers_dict self ua true /\
  size (headers_dict self ua false) = 3 /\
  size (headers_dict self ua true) = 4.
Proof.
  assert (D : headers_dict self ua false
              = delete "Authorization" (headers_dict self ua true)).
  { apply map_eq. intros k. destruct (decide (k = "Authorization")) as [->|Hk].
    - now rewrite lookup_delete_eq, headers_dict_authorization.
    - rewrite lookup_delete_ne by congruence. unfold headers_dict.
      rewrite (lookup_union_r {["Authorization" := _]}) by (now apply lookup_singleton_ne).
      now rewrite (left_id_L ∅ (∪)). }
  split; [exact D |]. split; [rewrite D; apply delete_subseteq |].
  split.
  - rewrite <- size_dom, headers_dict_dom. reflexivity.
  - rewrite <- size_dom, headers_dict_dom. reflexivity.
Qed.

(** X9. What the headers show of the manager.  Without bearer the header
    set is the same for every manager: nothing of the username, the token
    or the base url is in it.  With bearer it depends on the token alone,
    and two managers have the same header set exactly when they have the
    same token. *)
Theorem headers_show_token_only (s1 s2 : AuthManager) (ua : string) :
  headers_dict s1 ua false = headers_dict s2 ua false /\
  (headers_dict s1 ua true = headers_dict s2 ua true <-> token s1 = token s2).
Proof.
  split; [reflexivity |]. split.
  - intros H. apply (f_equal (fun m => m !! "Authorization")) in H.
    rewrite !headers_dict_authorization in H. now injection H.
  - intros H. unfold headers_dict. now rewrite H.
Qed.

End HeaderEdgeFacts.

(** ** More on [request] *)

Section RequestEdgeFacts.

Variable env : Environment.

Local Open Scope url_scope.

(** X10. A request whose credentials are built generates exactly one
    user agent, whether it then succeeds or fails and whichever
    authentication it uses, and the [User-Agent] header of its call is that
    string.  A request whose credentials are refused generates none and
    makes no call: the state is left as it was. *)
Theorem request_draws_one_user_agent (st : state) (endpoint method : string)
    (params : option (list (string * string))) :
  match request_auth (self_obj st) with
  | inl _ => snd (request env endpoint method params st) = st
  | inr _ =>
      ua_draws (snd (request env endpoint method params st)) = S (ua_draws st) /\
      exists c,
        calls (snd (request env endpoint method params st)) = (calls st ++ [c])%list /\
        call_headers c !! "User-Agent" = Some (generate_user_agent env (ua_draws st))
  end.
Proof.
  destruct (request_auth (self_obj st)) as [e|auth] eqn:Ha.
  - now rewrite (request_refused env st e).
  - rewrite (request_run env st auth) by exact Ha. split; [reflexivity |].
    eexists. split; [reflexivity |].
    cbn [request_call call_headers]. apply headers_dict_user_agent.
Qed.

(** X11. The [user_agent] property generates anew on every access: two
    [headers] calls in a row carry the next two strings of the generator,
    in order, and leave the calls made so far untouched. *)
Theorem headers_twice_draws_twice (st : state) (b1 b2 : bool) :
  exists h1 h2 st',
    (let* h1 := headers env b1 in let* h2 := headers env b2 in ret (h1, h2)) st
    = (inr (h1, h2), st') /\
    h1 !! "User-Agent" = Some (generate_user_agent env (ua_draws st)) /\
    h2 !! "User-Agent" = Some (generate_user_agent env (S (ua_draws st))) /\
    ua_draws st' = S (S (ua_draws st)) /\
    calls st' = calls st /\
    self_obj st' = self_obj st.
Proof.
  do 3 eexists. split; [reflexivity |].
  cbn [self_obj ua_draws calls]. unfold id.
  rewrite !headers_dict_user_agent. repeat split.
Qed.

(** X12. Two requests in a row.  If building the credentials raises, the
    first request raises, the second is not made and the state is left as
    it was.  Otherwise: if the first request raises, the second is not
    made, one call is logged and the exception is the result; if the first
    one returns, the second is made from the same manager: its URL,
    credentials, requester and parameters are those it would have had as
    the first request; only the user agent is the generator's next one. *)
Theorem request_twice (st : state) (e1 m1 e2 m2 : string)
    (p1 p2 : option (list (string * string))) :
  let both := (let* _ := request env e1 m1 p1 in request env e2 m2 p2) st in
  match request_auth (self_obj st) with
  | inl x => both = (inl x, st)
  | inr auth =>
      let c1 := request_call env st auth e1 m1 p1 in
      let alone := request_call env st auth e2 m2 p2 in
      (forall x, fst (request env e1 m1 p1 st) = inl x ->
                 fst both = inl x /\ calls (snd both) = (calls st ++ [c1])%list) /\
      (forall j, fst (request env e1 m1 p1 st) = inr j ->
                 exists c2,
                   calls (snd both) = (calls st ++ [c1; c2])%list /\
                   call_url c2 = call_url alone /\
                   call_auth c2 = call_auth alone /\
                   call_requester c2 = call_requester alone /\
                   call_params c2 = call_params alone /\
                   call_headers c2
                   = <["User-Agent" := generate_user_agent env (S (ua_draws st))]>
                       (call_headers alone) /\
                   fst both = match perform env c2 with
                              | inl x => inl x
                              | inr r => read_json env r
                              end)
  end.
Proof.
  intros both. subst both. unfold bind.
  destruct (request_auth (self_obj st)) as [x|auth] eqn:Ha.
  - now rewrite (request_refused env st x).
  - destruct (request env e1 m1 p1 st) as [[x|j] st1] eqn:E1;
      rewrite (request_run env st auth) in E1 by exact Ha;
      injection E1 as E1 <-; split.
    + intros y [= <-]. split; reflexivity.
    + intros j [=].
    + intros y [=].
    + intros j' _. rewrite (request_run env _ auth) by exact Ha. eexists. split.
      * cbn [snd calls]. rewrite <- app_assoc. reflexivity.
      * cbn [request_call call_url call_auth call_requester call_params call_headers
               self_obj ua_draws].
        repeat split.
        unfold headers_dict. cbv zeta.
        rewrite insert_union_r
          by (destruct (negb _); [apply lookup_singleton_ne; congruence | apply lookup_empty]).
        now rewrite insert_insert_eq.
Qed.

End RequestEdgeFacts.

Lemma request_twice_witness :
  exists c2,
    calls (snd ((let* _ := request (sample_env ok_response) "a" "GET" None in
                 request (sample_env ok_response) "b" "POST" None)
                  (initial_state
                     {| username := None; token := "T"; base_url := Some "https://api.url" |})))
    = [request_call (sample_env ok_response)
         (initial_state
            {| username := None; token := "T"; base_url := Some "https://api.url" |})
         None "a" "GET" None; c2] /\
    call_url c2 = "https://api.url/api/v1/b" /\
    call_requester c2 = Method POST.
Proof.
  destruct (proj2 (request_twice (sample_env ok_response)
                     (initial_state
                        {| username := None; token := "T";
                           base_url := Some "https://api.url" |})
                     "a" "GET" "b" "POST" None None)
              (JArray [JNumber 1])) as (c2 & Hc & Hu & _ & Hr & _).
  - rewrite (request_run _ _ None) by reflexivity. reflexivity.
  - exists c2. split; [exact Hc |]. split; [rewrite Hu | rewrite Hr]; reflexivity.
Defined.

Section RequestInputFacts.

Variable env : Environment.

Local Open Scope url_scope.

(** X13. Leading slashes of the endpoint do not reach the URL: an endpoint
    with any run of slashes in front targets the same URL, which is the
    join of the API root and the endpoint as given, so the explicit
    [lstrip] before the join changes nothing.  An endpoint that is empty or
    made of slashes only targets the API root followed by one slash.  (No
    call is made, and so no URL is targeted, when building the Basic
    credentials raises.) *)
Theorem request_url_ignores_leading_slashes (self : RequestManager)
    (endpoint method : string) (params : option (list (string * string))) (n : nat) :
  map call_url (issued_calls env self (PyStr.slashes n +:+ endpoint) method params)
  = map call_url (issued_calls env self endpoint method params) /\
  map call_url (issued_calls env self endpoint method params)
  = match request_auth self with
    | inl _ => []
    | inr _ => [api_url self </> endpoint]
    end /\
  map call_url (issued_calls env self (PyStr.slashes n) method params)
  = match request_auth self with
    | inl _ => []
    | inr _ => [api_url self +:+ "/"]
    end.
Proof.
  rewrite !issued_calls_cases.
  destruct (request_auth self) as [e|auth]; [repeat split |].
  cbn [map request_call call_url self_obj initial_state].
  repeat split.
  - now rewrite lstrip_slashes.
  - unfold URL.truediv. now rewrite lstrip_idem.
  - rewrite <- (append_empty_r (PyStr.slashes n)), lstrip_slashes.
    unfold URL.truediv. simpl PyStr.lstrip. now rewrite rstrip_api_url.
Qed.

(** X14. A manager with an empty token can be constructed, and then a
    username does not help: whatever the username, [request] uses no Basic
    credentials and sends the header [Authorization: Bearer ] with nothing
    after the space. *)
Theorem empty_token_sends_empty_bearer (u base : option string)
    (endpoint method : string) (params : option (list (string * string))) :
  exists self c,
    AuthManager_init (Pydantic.arg_of_option u) (Pydantic.PyStr "")
      (Pydantic.arg_of_option base) = inr self /\
    username self = u /\
    issued_calls env self endpoint method params = [c] /\
    call_auth c = None /\
    call_headers c !! "Authorization" = Some "Bearer ".
Proof.
  assert (A : request_auth {| username := u; token := ""; base_url := base |}
              = inr None).
  { unfold request_auth. simpl. destruct u as [s|]; [| reflexivity].
    now rewrite andb_false_r. }
  exists {| username := u; token := ""; base_url := base |}. eexists.
  split; [destruct u, base; reflexivity |].
  split; [reflexivity |].
  split; [apply (issued_calls_run env _ None), A |].
  cbn [request_call call_auth call_headers self_obj initial_state].
  split; [reflexivity |].
  now rewrite headers_dict_authorization.
Qed.

(** X15. For a method written in ASCII, lower-casing it before the call
    changes nothing: the call made and the result are those of the method
    as given. *)
Theorem request_method_prelowered (self : RequestManager) (endpoint method : string)
    (params : option (list (string * string))) :
  PyStr.is_ascii method = true ->
  issued_calls env self endpoint (PyStr.lower (unicode_lower env) method) params
  = issued_calls env self endpoint method params /\
  fst (run_request env self endpoint (PyStr.lower (unicode_lower env) method) params)
  = fst (run_request env self endpoint method params).
Proof.
  intros Hm.
  assert (H : forall auth,
             request_call env (initial_state self) auth endpoint
               (PyStr.lower (unicode_lower env) method) params
             = request_call env (initial_state self) auth endpoint method params).
  { intros auth. unfold request_call. now rewrite (lower_idem_ascii _ _ Hm). }
  unfold run_request. rewrite !issued_calls_cases.
  destruct (request_auth self) as [e|auth] eqn:Ha.
  - rewrite !(request_refused env (initial_state self) e) by exact Ha. split; reflexivity.
  - rewrite !(request_run env (initial_state self) auth) by exact Ha.
    rewrite H. split; reflexivity.
Qed.

(** X16. How the requester is chosen, for a request whose credentials are
    built.  The method is lower-cased and the name looked up on the
    session: the name of a verb method selects that verb; a name that is
    no attribute of the session selects GET; a name of another attribute
    selects that attribute.  Two methods with the same lower-cased form
    make the same call, and an ASCII method is lower-cased letter by
    letter. *)
Theorem request_dispatch (self : RequestManager) (auth : option BasicAuth)
    (endpoint method : string) (params : option (list (string * string))) :
  request_auth self = inr auth ->
  exists c,
    issued_calls env self endpoint method params = [c] /\
    (forall v, PyStr.lower (unicode_lower env) method = verb_name v ->
               call_requester c = Method v) /\
    ((forall v, PyStr.lower (unicode_lower env) method <> verb_name v) ->
     has_member env (PyStr.lower (unicode_lower env) method) = false ->
     call_requester c = Method GET) /\
    ((forall v, PyStr.lower (unicode_lower env) method <> verb_name v) ->
     has_member env (PyStr.lower (unicode_lower env) method) = true ->
     call_requester c = Member (PyStr.lower (unicode_lower env) method)) /\
    (forall method',
        PyStr.lower (unicode_lower env) method' = PyStr.lower (unicode_lower env) method ->
        issued_calls env self endpoint method' params = [c]) /\
    (PyStr.is_ascii method = true ->
     PyStr.lower (unicode_lower env) method = PyStr.lower_ascii method).
Proof.
  intros Ha. eexists. split; [apply (issued_calls_run env self auth), Ha |].
  cbn [request_call call_requester].
  repeat split.
  - intros v ->. apply getattr_verb.
  - intros Hv Hm. now apply getattr_absent.
  - intros Hv Hm. now apply getattr_member.
  - intros method' H. rewrite (issued_calls_run env self auth) by exact Ha.
    unfold request_call. now rewrite H.
  - apply lower_of_ascii.
Qed.

End RequestInputFacts.

Lemma request_method_prelowered_witness :
  issued_calls (sample_env ok_response)
    {| username := Some "alice"; token := "T"; base_url := Some "https://api.url" |}
    "users/1" "get" None
  = issued_calls (sample_env ok_response)
      {| username := Some "alice"; token := "T"; base_url := Some "https://api.url" |}
      "users/1" "GeT" None.
Proof.
  apply (proj1 (request_method_prelowered (sample_env ok_response)
                  {| username := Some "alice"; token := "T";
                     base_url := Some "https://api.url" |}
                  "users/1" "GeT" None eq_refl)).
Defined.

Lemma request_dispatch_witness :
  map call_requester
    (issued_calls (sample_env ok_response)
       {| username := None; token := "T"; base_url := Some "https://api.url" |}
       "users/1" "XPATCH" None)
  = [Method GET].
Proof.
  destruct (request_dispatch (sample_env ok_response)
              {| username := None; token := "T"; base_url := Some "https://api.url" |}
              None "users/1" "XPATCH" None eq_refl) as (c & Hc & _ & H & _).
  rewrite Hc. cbn [map]. f_equal. apply H.
  - intros v. destruct v; discriminate.
  - reflexivity.
Defined.
